(** * FlareFTSOPriceOracle: a shallow embedding of the price-history contract

    Source: [src/contracts/FlareFTSOPriceOracle.sol] (Solidity 0.8.19, so
    every [uint256] operation is checked and reverts with a panic on
    overflow, underflow, division by zero and out-of-range indexing).

    - [uint256] values are [Z] with the checks written out ([Sol]);
    - a [mapping(string => T)] is a [gmap string T] read with the type's
      zero value as default;
    - a storage array is a [list], indexed with stdpp's lookup and insert;
    - a call is a function from the contract state to a [result]: a revert
      carries its reason and discards every write of the call. *)

From Stdlib Require Import ZArith Lia.
From stdpp Require Import gmap strings list fin_maps.

(** ** Solidity 0.8 primitives *)

Module Sol.

Definition address := Z.

Definition UINT256_MODULUS : Z := 2 ^ 256.

(** [require(c, msg)] fails with [Error msg]; a failed arithmetic or
    array check fails with [Panic code]; a failing external call bubbles
    up as [CallFailed]. *)
Inductive revert_reason :=
| Error (msg : string)
| Panic (code : Z)
| CallFailed.

Inductive result (A : Type) :=
| Ok (a : A)
| Revert (r : revert_reason).
Arguments Ok {A} a.
Arguments Revert {A} r.

(** Panic codes of the compiler. *)
Definition PANIC_ARITHMETIC : Z := 17.      (* 0x11 *)
Definition PANIC_DIV_BY_ZERO : Z := 18.     (* 0x12 *)
Definition PANIC_EMPTY_POP : Z := 49.       (* 0x31 *)
Definition PANIC_OUT_OF_BOUNDS : Z := 50.   (* 0x32 *)

Definition checked_sub (a b : Z) : result Z :=
  if (b <=? a)%Z then Ok (a - b)%Z else Revert (Panic PANIC_ARITHMETIC).

Definition checked_mul (a b : Z) : result Z :=
  if (a * b <? UINT256_MODULUS)%Z then Ok (a * b)%Z
  else Revert (Panic PANIC_ARITHMETIC).

Definition checked_div (a b : Z) : result Z :=
  if (b =? 0)%Z then Revert (Panic PANIC_DIV_BY_ZERO) else Ok (a / b)%Z.

(** [int256(x)] for [x : uint256]: the same 256 bits read in two's
    complement; an explicit conversion is not checked. *)
Definition int256_of_uint256 (x : Z) : Z :=
  if (x <? 2 ^ 255)%Z then x else (x - UINT256_MODULUS)%Z.

(** The error monad of a call, with stdpp's [x ← r; k] notation: the
    first revert ends the call. *)
#[global] Instance result_ret : MRet result := fun A a => Ok a.
#[global] Instance result_bind : MBind result := fun A B k r =>
  match r with
  | Ok a => k a
  | Revert e => Revert e
  end.

Definition require (c : bool) (msg : string) : result unit :=
  if c then Ok tt else Revert (Error msg).

(** [a[i]] on a storage array. *)
Definition index {A} (a : list A) (i : nat) : result A :=
  match a !! i with
  | Some x => Ok x
  | None => Revert (Panic PANIC_OUT_OF_BOUNDS)
  end.

(** [a[i] = x]. *)
Definition store {A} (a : list A) (i : nat) (x : A) : result (list A) :=
  if (i <? length a)%nat then Ok (<[i := x]> a)
  else Revert (Panic PANIC_OUT_OF_BOUNDS).

(** [a.pop()]. *)
Definition pop {A} (a : list A) : result (list A) :=
  match a with
  | [] => Revert (Panic PANIC_EMPTY_POP)
  | _ => Ok (removelast a)
  end.

(** The outcome of an external view call, [None] when the callee fails. *)
Definition external {A} (o : option A) : result A :=
  match o with
  | Some a => Ok a
  | None => Revert CallFailed
  end.

End Sol.
Import Sol.


(** ** Contract state *)

Record PriceData := mkPriceData {
  price : Z;
  timestamp : Z;
  epochId : Z
}.

Inductive Event :=
| PriceUpdated (symbol : string) (price timestamp epochId : Z).

Record State := mkState {
  owner : address;
  reentrancy_entered : bool;
  ftsoRegistry : address;
  ftsoManager : address;
  priceHistory : gmap string (list PriceData);
  lastUpdateTime : gmap string Z
}.

(** [priceHistory[symbol]] and [lastUpdateTime[symbol]]: an absent key reads
    as the empty array and as 0. *)
Definition history_of (s : State) (symbol : string) : list PriceData :=
  default [] (priceHistory s !! symbol).

Definition last_update_of (s : State) (symbol : string) : Z :=
  default 0%Z (lastUpdateTime s !! symbol).

Definition set_history (symbol : string) (h : list PriceData) (s : State) : State :=
  mkState (owner s) (reentrancy_entered s) (ftsoRegistry s) (ftsoManager s)
          (<[symbol := h]> (priceHistory s)) (lastUpdateTime s).

Definition set_lastUpdateTime (symbol : string) (t : Z) (s : State) : State :=
  mkState (owner s) (reentrancy_entered s) (ftsoRegistry s) (ftsoManager s)
          (priceHistory s) (<[symbol := t]> (lastUpdateTime s)).

Definition set_ftsoRegistry (a : address) (s : State) : State :=
  mkState (owner s) (reentrancy_entered s) a (ftsoManager s)
          (priceHistory s) (lastUpdateTime s).

Definition set_ftsoManager (a : address) (s : State) : State :=
  mkState (owner s) (reentrancy_entered s) (ftsoRegistry s) a
          (priceHistory s) (lastUpdateTime s).

Definition set_entered (b : bool) (s : State) : State :=
  mkState (owner s) b (ftsoRegistry s) (ftsoManager s)
          (priceHistory s) (lastUpdateTime s).

(** What a call sees of the chain: its sender, the block's time, and the
    answers of the FTSO registry and manager deployed at an address. *)
Record Env := mkEnv {
  msg_sender : address;
  block_timestamp : Z;
  registry_getCurrentPrice : address -> string -> option (Z * Z);
  manager_getCurrentEpochId : address -> option Z
}.

Definition PRICE_VALIDITY_PERIOD : Z := 24 * 3600.
Definition MAX_HISTORY_LENGTH : nat := 24.
Definition ONE_HOUR : Z := 3600.

(** The error names of the specification are the contract's revert strings. *)
Definition NotFound : revert_reason := Error "No price data available".
Definition InsufficientHistory : revert_reason := Error "Insufficient price history".
Definition InvalidReference : revert_reason := Error "Invalid address".
Definition Unauthorized : revert_reason := Error "Ownable: caller is not the owner".
Definition FeedUnavailable : revert_reason := CallFailed.

(** ** Inherited modifiers *)

(** Modelled from the spec: the [onlyOwner] modifier of the imported
    [Ownable] base contract, which is not part of the sources. The setters
    "succeed only when invoked by [owner]; fail with [Unauthorized]
    otherwise". *)
Definition onlyOwner {A} (e : Env) (body : State -> result A) (s : State) : result A :=
  _ ← require (bool_decide (msg_sender e = owner s)) "Ownable: caller is not the owner";
  body s.

(** Modelled from the spec: the [nonReentrant] modifier of the imported
    [ReentrancyGuard] base contract, which is not part of the sources. An
    update runs "with implicit mutual exclusion per invocation": the guard is
    taken on entry, refused when already taken, and released on exit. *)
Definition nonReentrant {A} (body : State -> result (A * State)) (s : State)
  : result (A * State) :=
  _ ← require (negb (reentrancy_entered s)) "ReentrancyGuard: reentrant call";
  '(a, s') ← body (set_entered true s);
  Ok (a, set_entered false s').

(** ** The contract *)

(** Modelled from the spec: the deployer becomes [owner] ("[init] creates it
    with given addresses and owner"); the two address checks are the
    constructor's own. *)
Definition genesis (deployer _ftsoRegistry _ftsoManager : address) : State :=
  mkState deployer false _ftsoRegistry _ftsoManager ∅ ∅.

Definition constructor (e : Env) (_ftsoRegistry _ftsoManager : address) : result State :=
  _ ← require (negb (bool_decide (_ftsoRegistry = 0%Z))) "Invalid FTSO Registry address";
  _ ← require (negb (bool_decide (_ftsoManager = 0%Z))) "Invalid FTSO Manager address";
  Ok (genesis (msg_sender e) _ftsoRegistry _ftsoManager).

Definition getCurrentTokenPrice (e : Env) (symbol : string) (s : State) : result (Z * Z) :=
  external (registry_getCurrentPrice e (ftsoRegistry s) symbol).

(** The eviction loop of [updatePriceData]:
    [for (i = 0; i < history.length - 1; i++) history[i] = history[i + 1];]
    run with [i] the current index and [n] the iterations left. *)
Fixpoint shift_left_from (n i : nat) (history : list PriceData) : result (list PriceData) :=
  match n with
  | O => Ok history
  | S n' =>
      next ← index history (i + 1);
      history ← store history i next;
      shift_left_from n' (S i) history
  end.

(** [history.length - 1] does not underflow: the loop is only reached with
    [MAX_HISTORY_LENGTH] entries or more. *)
Definition shift_left (history : list PriceData) : result (list PriceData) :=
  shift_left_from (length history - 1) 0 history.

Definition updatePriceData (e : Env) (symbol : string) : State -> result (list Event * State) :=
  nonReentrant (fun s =>
    '(price, timestamp) ← getCurrentTokenPrice e symbol s;
    currentEpochId ← external (manager_getCurrentEpochId e (ftsoManager s));
    let history := history_of s symbol in
    history ←
      (if (MAX_HISTORY_LENGTH <=? length history)%nat
       then shifted ← shift_left history; pop shifted
       else Ok history);
    let history := history ++ [mkPriceData price timestamp currentEpochId] in
    let s := set_history symbol history s in
    let s := set_lastUpdateTime symbol (block_timestamp e) s in
    Ok ([PriceUpdated symbol price timestamp currentEpochId], s)).

(** The copy loop of [getPriceHistory], writing slot [i] of the three
    result arrays; [n] iterations are left. *)
Fixpoint copy_history_from (n i : nat) (history : list PriceData)
    (out : list Z * list Z * list Z) : result (list Z * list Z * list Z) :=
  match n with
  | O => Ok out
  | S n' =>
      let '(prices, timestamps, epochIds) := out in
      p ← index history i;
      prices ← store prices i (price p);
      t ← index history i;
      timestamps ← store timestamps i (timestamp t);
      ep ← index history i;
      epochIds ← store epochIds i (epochId ep);
      copy_history_from n' (S i) history (prices, timestamps, epochIds)
  end.

Definition getPriceHistory (symbol : string) (s : State)
  : result (list Z * list Z * list Z) :=
  let history := history_of s symbol in
  let length := length history in
  let prices := replicate length 0%Z in
  let timestamps := replicate length 0%Z in
  let epochIds := replicate length 0%Z in
  copy_history_from length 0 history (prices, timestamps, epochIds).

Definition getLatestPriceData (symbol : string) (s : State) : result (Z * Z * Z) :=
  _ ← require (0 <? length (history_of s symbol))%nat "No price data available";
  let history := history_of s symbol in
  latest ← index history (length history - 1);
  Ok (price latest, timestamp latest, epochId latest).

Definition needsUpdate (e : Env) (symbol : string) (s : State) : result bool :=
  elapsed ← checked_sub (block_timestamp e) (last_update_of s symbol);
  Ok (ONE_HOUR <=? elapsed)%Z.

Definition get24hPriceChange (symbol : string) (s : State) : result Z :=
  let history := history_of s symbol in
  _ ← require (1 <? length history)%nat "Insufficient price history";
  latest ← index history (length history - 1);
  let currentPrice := price latest in
  oldest ← index history 0;
  let oldestPrice := price oldest in
  if (oldestPrice =? 0)%Z then Ok 0%Z
  else
    scaled ← checked_mul currentPrice 10000;
    ratio ← checked_div scaled oldestPrice;
    diff ← checked_sub ratio 10000;
    Ok (int256_of_uint256 diff).

Definition updateFtsoRegistry (e : Env) (_newRegistry : address)
  : State -> result (unit * State) :=
  onlyOwner e (fun s =>
    _ ← require (negb (bool_decide (_newRegistry = 0%Z))) "Invalid address";
    Ok (tt, set_ftsoRegistry _newRegistry s)).

Definition updateFtsoManager (e : Env) (_newManager : address)
  : State -> result (unit * State) :=
  onlyOwner e (fun s =>
    _ ← require (negb (bool_decide (_newManager = 0%Z))) "Invalid address";
    Ok (tt, set_ftsoManager _newManager s)).

(** ** Transactions *)

(** The state-changing functions the contract declares. *)

Inductive Call :=
| CallUpdatePriceData (symbol : string)
| CallUpdateFtsoRegistry (_newRegistry : address)
| CallUpdateFtsoManager (_newManager : address).

(** A transaction either commits the state its call returns or, on a
    revert, leaves the contract as it was. *)
Definition commit {A} (r : result (A * State)) (s : State) : State :=
  match r with
  | Ok (_, s') => s'
  | Revert _ => s
  end.

Definition exec (tx : Env * Call) (s : State) : State :=
  let '(e, c) := tx in
  match c with
  | CallUpdatePriceData symbol => commit (updatePriceData e symbol s) s
  | CallUpdateFtsoRegistry a => commit (updateFtsoRegistry e a s) s
  | CallUpdateFtsoManager a => commit (updateFtsoManager e a s) s
  end.

Definition run (txs : list (Env * Call)) (s : State) : State :=
  foldl (fun s tx => exec tx s) s txs.

(** ** Reference points for the statements *)

(** What an update keeps of a history before it appends: everything, or
    everything but the oldest entry once [MAX_HISTORY_LENGTH] is reached. *)
Definition retained (history : list PriceData) : list PriceData :=
  if (MAX_HISTORY_LENGTH <=? length history)%nat then drop 1 history else history.

(** The state a successful [updatePriceData] commits, given the quote
    [(p, t)] of the registry and the epoch [ep] of the manager. *)
Definition updated (e : Env) (symbol : string) (p t ep : Z) (s : State) : State :=
  set_entered false
    (set_lastUpdateTime symbol (block_timestamp e)
       (set_history symbol (retained (history_of s symbol) ++ [mkPriceData p t ep])
          (set_entered true s))).

(** A chain on which every registry quotes price [p] stamped with the block
    time and every manager is in epoch 7. *)
Definition quoting (sender now p : Z) : Env :=
  mkEnv sender now (fun _ _ => Some (p, now)) (fun _ => Some 7%Z).

(** The [n]-th hourly update of ["XRP"], quoting price [n]. *)
Definition hourly_update (n : nat) : Env * Call :=
  (quoting 5%Z (1700000000 + 3600 * Z.of_nat n)%Z (Z.of_nat n), CallUpdatePriceData "XRP").

Definition hourly_updates (first count : nat) : list (Env * Call) :=
  hourly_update <$> seq first count.

Definition fresh : State := genesis 1%Z 2%Z 3%Z.

(** The capacity invariant of the history store. *)
Definition bounded (s : State) : Prop :=
  forall symbol : string, (length (history_of s symbol) <= MAX_HISTORY_LENGTH)%nat.

(** ** Further reference points *)

(** A value of type [uint256]. *)
Definition uint256 (x : Z) : Prop := (0 <= x < UINT256_MODULUS)%Z.

(** The sample an update at [e] stores for [symbol] when the registry at
    [registry] and the manager at [manager] both answer. *)
Definition quoted (e : Env) (registry manager : address) (symbol : string)
  : option PriceData :=
  '(p, t) ← registry_getCurrentPrice e registry symbol;
  ep ← manager_getCurrentEpochId e manager;
  Some (mkPriceData p t ep).

(** The last [MAX_HISTORY_LENGTH] entries of a sequence. *)
Definition window {A} (l : list A) : list A :=
  drop (length l - MAX_HISTORY_LENGTH) l.

(** One [updatePriceData(symbol)] transaction per chain view of [es]. *)
Definition updates (symbol : string) (es : list Env) : list (Env * Call) :=
  (fun e => (e, CallUpdatePriceData symbol)) <$> es.

(** A chain on which only the registry deployed at [registry] answers, with
    price [p] stamped with the block time; every manager is in epoch 7. *)
Definition quoting_at (registry : address) (sender now p : Z) : Env :=
  mkEnv sender now
    (fun a _ => if bool_decide (a = registry) then Some (p, now) else None)
    (fun _ => Some 7%Z).

(** ** The deployment script

    Source: [src/scripts/deploy_ftso_oracle.js], function [main]. The two
    address tables are objects read by network name; a thrown error ends the
    script; console output is left out. *)

Definition FTSO_REGISTRY_ADDRESSES : gmap string address :=
  {[ "flare" := 0x6D222fb4544ba230d4b90BA1BfC0A01A94E6cB23%Z;
     "coston" := 0x4D2c60205557437967AF9f95857A6d0149e3F6c3%Z;
     "coston2" := 0x0E10F1Cd89E3726F2e940Cc3566dE5C4c3f56D4F%Z ]}.

Definition FTSO_MANAGER_ADDRESSES : gmap string address :=
  {[ "flare" := 0x1000000000000000000000000000000000000003%Z;
     "coston" := 0x1000000000000000000000000000000000000003%Z;
     "coston2" := 0x1000000000000000000000000000000000000003%Z ]}.

Definition commonTokens : list string := ["XRP"; "BTC"; "ETH"; "FLR"].

(** How a run of the script ends: with an error thrown before or after the
    contract was deployed, or normally with the contract in state [s]. *)
Inductive ScriptOutcome :=
| Thrown (deployedContract : option State)
| Completed (s : State).

(** The body of the initialisation loop,
    [try { await oracle.updatePriceData(token) } catch (error) { console.warn(...) }]:
    a failed update is reported and changes nothing. [env_of token] is the
    chain as the token's transaction sees it. *)
Definition tryUpdate (env_of : string -> Env) (s : State) (token : string) : State :=
  commit (updatePriceData (env_of token) token s) s.

(** [for (const token of commonTokens) ...]. *)
Definition initializeCommonTokens (env_of : string -> Env) (s : State) : State :=
  foldl (tryUpdate env_of) s commonTokens.

(** [main], for the network [network]; [deployEnv] is the chain as the
    deployment sees it, and [etherscan] says whether [ETHERSCAN_API_KEY] is
    set and, if so, whether the verification task returns ([true]) or
    throws. *)
Definition main (network : string) (deployEnv : Env) (etherscan : option bool)
    (env_of : string -> Env) : ScriptOutcome :=
  match FTSO_REGISTRY_ADDRESSES !! network, FTSO_MANAGER_ADDRESSES !! network with
  | Some ftsoRegistryAddress, Some ftsoManagerAddress =>
      match constructor deployEnv ftsoRegistryAddress ftsoManagerAddress with
      | Revert _ => Thrown None
      | Ok oracle =>
          match etherscan with
          | Some false => Thrown (Some oracle)
          | _ => Completed (initializeCommonTokens env_of oracle)
          end
      end
  | _, _ => Thrown None
  end.

(** A chain on which the feeds answer price 10 for every token but [down],
    for which the registry call fails. *)
Definition feeds_except (down : string) (token : string) : Env :=
  if bool_decide (token = down)
  then mkEnv 1%Z 1700000000 (fun _ _ => None) (fun _ => Some 7%Z)
  else quoting 1 1700000000 10.

(** ** The loops *)

Section Loops.

Lemma index_middle {A} (pre rest : list A) (x : A) :
  index (pre ++ x :: rest) (length pre) = Ok x.
Proof. unfold index. now rewrite list_lookup_middle. Qed.

Lemma index_after {A} (pre rest : list A) (x y : A) :
  index (pre ++ x :: y :: rest) (length pre + 1) = Ok y.
Proof.
  unfold index. rewrite (cons_middle x pre (y :: rest)), app_assoc.
  rewrite list_lookup_middle; [reflexivity|].
  rewrite length_app. reflexivity.
Qed.

Lemma store_middle {A} (pre rest : list A) (x y : A) :
  store (pre ++ x :: rest) (length pre) y = Ok (pre ++ y :: rest).
Proof.
  unfold store.
  assert (Hlt : (length pre <? length (pre ++ x :: rest))%nat = true).
  { apply Nat.ltb_lt. rewrite length_app. simpl. lia. }
  rewrite Hlt. f_equal.
  rewrite insert_app_r_alt by lia.
  now rewrite Nat.sub_diag.
Qed.

Lemma last_cons_default {A} (x y : A) (l : list A) :
  default x (last (y :: l)) = default y (last l).
Proof.
  revert x y. induction l as [|z l IH]; intros x y; [reflexivity|].
  change (last (y :: z :: l)) with (last (z :: l)).
  now rewrite (IH x z), (IH y z).
Qed.

(** After the loop every entry has moved one slot down and the last one
    is there twice. *)
Lemma shift_left_from_spec (rest pre : list PriceData) (x : PriceData) :
  shift_left_from (length rest) (length pre) (pre ++ x :: rest)
  = Ok (pre ++ rest ++ [default x (last rest)]).
Proof.
  revert pre x. induction rest as [|y rest IH]; intros pre x.
  - reflexivity.
  - cbn [shift_left_from length].
    rewrite index_after. cbn [mbind result_bind].
    rewrite store_middle. cbn [mbind result_bind].
    specialize (IH (pre ++ [y]) y).
    rewrite length_app, Nat.add_1_r, <- app_assoc in IH. cbn [app] in IH.
    rewrite IH, <- app_assoc. cbn [app].
    now rewrite last_cons_default.
Qed.

Lemma shift_left_then_pop (x : PriceData) (rest : list PriceData) :
  (shifted ← shift_left (x :: rest); pop shifted) = Ok rest.
Proof.
  unfold shift_left.
  replace (length (x :: rest) - 1) with (length rest) by (cbn [length]; lia).
  pose proof (shift_left_from_spec rest [] x) as Hloop.
  cbn [length app] in Hloop. rewrite Hloop. cbn [mbind result_bind].
  unfold pop. rewrite removelast_last.
  now destruct rest.
Qed.

Lemma copy_history_from_spec (rest pre : list PriceData) :
  copy_history_from (length rest) (length pre) (pre ++ rest)
    ((price <$> pre) ++ replicate (length rest) 0%Z,
     (timestamp <$> pre) ++ replicate (length rest) 0%Z,
     (epochId <$> pre) ++ replicate (length rest) 0%Z)
  = Ok (price <$> pre ++ rest, timestamp <$> pre ++ rest, epochId <$> pre ++ rest).
Proof.
  revert pre. induction rest as [|x rest IH]; intros pre.
  - cbn [copy_history_from length replicate]. now rewrite !app_nil_r.
  - cbn [copy_history_from length replicate].
    rewrite index_middle. cbn [mbind result_bind].
    rewrite <- (length_fmap price pre) at 1. rewrite store_middle. cbn [mbind result_bind].
    rewrite <- (length_fmap timestamp pre) at 1. rewrite store_middle. cbn [mbind result_bind].
    rewrite <- (length_fmap epochId pre) at 1. rewrite store_middle. cbn [mbind result_bind].
    specialize (IH (pre ++ [x])).
    rewrite length_app, Nat.add_1_r, !fmap_app, <- !app_assoc in IH. cbn [app fmap list_fmap] in IH.
    rewrite IH. now rewrite !fmap_app.
Qed.
End Loops.

(** ** [updatePriceData] in closed form *)

Lemma updatePriceData_eq (e : Env) (symbol : string) (s : State) :
  updatePriceData e symbol s =
  if reentrancy_entered s then Revert (Error "ReentrancyGuard: reentrant call")
  else
    match registry_getCurrentPrice e (ftsoRegistry s) symbol with
    | None => Revert CallFailed
    | Some (p, t) =>
        match manager_getCurrentEpochId e (ftsoManager s) with
        | None => Revert CallFailed
        | Some ep => Ok ([PriceUpdated symbol p t ep], updated e symbol p t ep s)
        end
    end.
Proof.
  unfold updatePriceData, nonReentrant, getCurrentTokenPrice.
  destruct (reentrancy_entered s); [reflexivity|].
  cbn [negb require mbind result_bind ftsoRegistry ftsoManager set_entered].
  destruct (registry_getCurrentPrice e (ftsoRegistry s) symbol) as [[p t]|];
    [|reflexivity].
  cbn [external mbind result_bind].
  destruct (manager_getCurrentEpochId e (ftsoManager s)) as [ep|]; [|reflexivity].
  cbn [external mbind result_bind].
  change (history_of (set_entered true s) symbol) with (history_of s symbol).
  unfold updated, retained.
  destruct (MAX_HISTORY_LENGTH <=? length (history_of s symbol))%nat eqn:Hfull.
  - destruct (history_of s symbol) as [|x rest] eqn:Hh.
    + discriminate.
    + rewrite shift_left_then_pop. reflexivity.
  - reflexivity.
Qed.

Lemma history_of_updated (e : Env) (symbol symbol' : string) (p t ep : Z) (s : State) :
  history_of (updated e symbol p t ep s) symbol' =
  if decide (symbol = symbol')
  then retained (history_of s symbol) ++ [mkPriceData p t ep]
  else history_of s symbol'.
Proof.
  unfold history_of, updated. cbn.
  rewrite lookup_insert. now destruct (decide (symbol = symbol')).
Qed.

Lemma last_update_of_updated (e : Env) (symbol symbol' : string) (p t ep : Z) (s : State) :
  last_update_of (updated e symbol p t ep s) symbol' =
  if decide (symbol = symbol') then block_timestamp e else last_update_of s symbol'.
Proof.
  unfold last_update_of, updated. cbn.
  rewrite lookup_insert. now destruct (decide (symbol = symbol')).
Qed.

Lemma length_retained_snoc (h : list PriceData) (x : PriceData) :
  (length h <= MAX_HISTORY_LENGTH)%nat ->
  (length (retained h ++ [x]) <= MAX_HISTORY_LENGTH)%nat.
Proof.
  intros Hle. unfold retained. rewrite length_app. cbn [length].
  destruct (MAX_HISTORY_LENGTH <=? length h)%nat eqn:Hfull.
  - apply Nat.leb_le in Hfull. rewrite length_drop. unfold MAX_HISTORY_LENGTH in *. lia.
  - apply Nat.leb_gt in Hfull. lia.
Qed.

(** ** The capacity invariant *)

Lemma history_of_exec_registry (e : Env) (a : address) (s : State) (symbol : string) :
  history_of (exec (e, CallUpdateFtsoRegistry a) s) symbol = history_of s symbol.
Proof.
  cbn [exec]. unfold updateFtsoRegistry, onlyOwner.
  destruct (bool_decide (msg_sender e = owner s)); [|reflexivity].
  now destruct (bool_decide (a = 0%Z)).
Qed.

Lemma history_of_exec_manager (e : Env) (a : address) (s : State) (symbol : string) :
  history_of (exec (e, CallUpdateFtsoManager a) s) symbol = history_of s symbol.
Proof.
  cbn [exec]. unfold updateFtsoManager, onlyOwner.
  destruct (bool_decide (msg_sender e = owner s)); [|reflexivity].
  now destruct (bool_decide (a = 0%Z)).
Qed.

Lemma bounded_genesis (deployer reg mgr : address) : bounded (genesis deployer reg mgr).
Proof. intros symbol. unfold history_of. cbn. rewrite lookup_empty. cbn. lia. Qed.

Lemma bounded_exec (tx : Env * Call) (s : State) : bounded s -> bounded (exec tx s).
Proof.
  intros Hs symbol'. destruct tx as [e [symbol|a|a]].
  - cbn [exec]. rewrite updatePriceData_eq.
    destruct (reentrancy_entered s); [apply Hs|].
    destruct (registry_getCurrentPrice e (ftsoRegistry s) symbol) as [[p t]|]; [|apply Hs].
    destruct (manager_getCurrentEpochId e (ftsoManager s)) as [ep|]; [|apply Hs].
    cbn [commit]. rewrite history_of_updated.
    destruct (decide (symbol = symbol')); [|apply Hs].
    apply length_retained_snoc, Hs.
  - rewrite history_of_exec_registry. apply Hs.
  - rewrite history_of_exec_manager. apply Hs.
Qed.

Lemma bounded_run (txs : list (Env * Call)) (s : State) : bounded s -> bounded (run txs s).
Proof.
  revert s. induction txs as [|tx txs IH]; intros s Hs; [exact Hs|].
  cbn [run foldl]. apply IH, bounded_exec, Hs.
Qed.

(** C1. Whatever transactions the contract has executed since deployment, and
    in particular after every prefix [take n txs] of any sequence of
    [updatePriceData] calls on one symbol, each symbol's stored history holds
    at most 24 samples. *)
Theorem history_length_at_most_24
    (deployer reg mgr : address) (txs : list (Env * Call)) (n : nat) (symbol : string) :
  (length (history_of (run (take n txs) (genesis deployer reg mgr)) symbol) <= 24)%nat.
Proof. apply bounded_run, bounded_genesis. Qed.

(** C2. An update of a symbol whose history holds 24 samples succeeds (given
    the registry's quote and the manager's epoch) and stores the previous
    samples 1..23 followed by the new one: slot 0 now holds the previous
    slot 1, the last slot holds the new sample, and the length stays 24.
    Updating with prices 1..25 leaves the prices 2..25. *)
Theorem update_at_capacity_shifts_left :
  (forall (e : Env) (symbol : string) (s : State) (p t ep : Z),
     reentrancy_entered s = false ->
     registry_getCurrentPrice e (ftsoRegistry s) symbol = Some (p, t) ->
     manager_getCurrentEpochId e (ftsoManager s) = Some ep ->
     length (history_of s symbol) = MAX_HISTORY_LENGTH ->
     exists s' : State,
       updatePriceData e symbol s = Ok ([PriceUpdated symbol p t ep], s') /\
       history_of s' symbol = drop 1 (history_of s symbol) ++ [mkPriceData p t ep] /\
       history_of s' symbol !! 0%nat = history_of s symbol !! 1%nat /\
       last (history_of s' symbol) = Some (mkPriceData p t ep) /\
       length (history_of s' symbol) = MAX_HISTORY_LENGTH) /\
  price <$> history_of (run (hourly_updates 1 25) fresh) "XRP"
  = [2; 3; 4; 5; 6; 7; 8; 9; 10; 11; 12; 13; 14; 15; 16; 17; 18; 19; 20; 21; 22;
     23; 24; 25]%Z.
Proof.
  split; [|vm_compute; reflexivity].
  intros e symbol s p t ep Hguard Hquote Hepoch Hlen.
  exists (updated e symbol p t ep s).
  rewrite updatePriceData_eq, Hguard, Hquote, Hepoch.
  rewrite history_of_updated. destruct (decide (symbol = symbol)); [|congruence].
  unfold retained. rewrite Hlen, Nat.leb_refl.
  assert (Hdrop : length (drop 1 (history_of s symbol)) = 23%nat).
  { rewrite length_drop, Hlen. reflexivity. }
  repeat split.
  - rewrite lookup_app_l by (rewrite Hdrop; lia). now rewrite lookup_drop.
  - apply last_snoc.
  - rewrite length_app, Hdrop. reflexivity.
Qed.

Lemma update_at_capacity_shifts_left_witness :
  length (history_of (run (hourly_updates 1 24) fresh) "XRP") = MAX_HISTORY_LENGTH /\
  exists s' : State,
    updatePriceData (fst (hourly_update 25)) "XRP" (run (hourly_updates 1 24) fresh)
    = Ok ([PriceUpdated "XRP" 25 1700090000 7], s') /\
    history_of s' "XRP"
    = drop 1 (history_of (run (hourly_updates 1 24) fresh) "XRP")
      ++ [mkPriceData 25 1700090000 7] /\
    history_of s' "XRP" !! 0%nat = history_of (run (hourly_updates 1 24) fresh) "XRP" !! 1%nat /\
    last (history_of s' "XRP") = Some (mkPriceData 25 1700090000 7) /\
    length (history_of s' "XRP") = MAX_HISTORY_LENGTH.
Proof.
  split; [vm_compute; reflexivity|].
  apply (proj1 update_at_capacity_shifts_left
           (fst (hourly_update 25)) "XRP" (run (hourly_updates 1 24) fresh));
    vm_compute; reflexivity.
Defined.

(** C10. An [updatePriceData] transaction on one symbol, committed or
    reverted, leaves the history and the last-update time of every other
    symbol as they were. *)
Theorem update_leaves_other_symbols
    (e : Env) (symbol symbol' : string) (s : State) :
  symbol <> symbol' ->
  history_of (exec (e, CallUpdatePriceData symbol) s) symbol' = history_of s symbol' /\
  last_update_of (exec (e, CallUpdatePriceData symbol) s) symbol' = last_update_of s symbol'.
Proof.
  intros Hne. cbn [exec]. rewrite updatePriceData_eq.
  destruct (reentrancy_entered s); [now split|].
  destruct (registry_getCurrentPrice e (ftsoRegistry s) symbol) as [[p t]|]; [|now split].
  destruct (manager_getCurrentEpochId e (ftsoManager s)) as [ep|]; [|now split].
  cbn [commit]. rewrite history_of_updated, last_update_of_updated.
  destruct (decide (symbol = symbol')); [contradiction|now split].
Qed.

Lemma update_leaves_other_symbols_witness :
  "BTC" <> "XRP" /\
  history_of (exec (quoting 5 1700100000 40000, CallUpdatePriceData "BTC")
                (run (hourly_updates 1 3) fresh)) "XRP"
  = history_of (run (hourly_updates 1 3) fresh) "XRP" /\
  last_update_of (exec (quoting 5 1700100000 40000, CallUpdatePriceData "BTC")
                    (run (hourly_updates 1 3) fresh)) "XRP"
  = last_update_of (run (hourly_updates 1 3) fresh) "XRP".
Proof.
  assert (Hne : "BTC" <> "XRP") by discriminate.
  split; [exact Hne|].
  exact (update_leaves_other_symbols (quoting 5 1700100000 40000) "BTC" "XRP"
           (run (hourly_updates 1 3) fresh) Hne).
Defined.

(** ** The read functions in closed form *)

Lemma getPriceHistory_eq (symbol : string) (s : State) :
  getPriceHistory symbol s
  = Ok (price <$> history_of s symbol,
        timestamp <$> history_of s symbol,
        epochId <$> history_of s symbol).
Proof.
  unfold getPriceHistory.
  exact (copy_history_from_spec (history_of s symbol) []).
Qed.

Lemma index_last {A} (older : list A) (newest : A) :
  index (older ++ [newest]) (length (older ++ [newest]) - 1) = Ok newest.
Proof.
  replace (length (older ++ [newest]) - 1) with (length older)
    by (rewrite length_app; cbn [length]; lia).
  apply index_middle.
Qed.

Lemma getLatestPriceData_snoc (symbol : string) (s : State)
    (older : list PriceData) (newest : PriceData) :
  history_of s symbol = older ++ [newest] ->
  getLatestPriceData symbol s = Ok (price newest, timestamp newest, epochId newest).
Proof.
  intros Hh. unfold getLatestPriceData. rewrite Hh.
  assert (Hpos : (0 <? length (older ++ [newest]))%nat = true).
  { apply Nat.ltb_lt. rewrite length_app. cbn [length]. lia. }
  rewrite Hpos. cbn [require mbind result_bind].
  now rewrite index_last.
Qed.

(** With two samples or more: 0 when the oldest price is 0, otherwise the
    checked computation on the oldest and the newest price. *)
Lemma get24hPriceChange_eq (symbol : string) (s : State)
    (oldest newest : PriceData) (between : list PriceData) :
  history_of s symbol = oldest :: between ++ [newest] ->
  get24hPriceChange symbol s =
  if (price oldest =? 0)%Z then Ok 0%Z
  else
    scaled ← checked_mul (price newest) 10000;
    ratio ← checked_div scaled (price oldest);
    diff ← checked_sub ratio 10000;
    Ok (int256_of_uint256 diff).
Proof.
  intros Hh. unfold get24hPriceChange. rewrite Hh.
  assert (Hlen : (1 <? length (oldest :: between ++ [newest]))%nat = true).
  { apply Nat.ltb_lt. cbn [length]. rewrite length_app. cbn [length]. lia. }
  rewrite Hlen. cbn [require mbind result_bind].
  rewrite (app_comm_cons between [newest] oldest), index_last.
  reflexivity.
Qed.

(** A history of two samples or more has an oldest and a newest one. *)
Lemma two_samples {A} (h : list A) :
  (2 <= length h)%nat -> exists oldest between newest, h = oldest :: between ++ [newest].
Proof.
  intros Hlen. destruct h as [|oldest rest]; [cbn in Hlen; lia|].
  destruct (decide (rest = [])) as [->|Hne]; [cbn in Hlen; lia|].
  exists oldest, (removelast rest), (List.last rest oldest).
  f_equal. now apply app_removelast_last.
Qed.

(** Where the price rose (the scaled ratio is at least 10000 and fits in
    [uint256]) the function returns the change in basis points. *)
Lemma get24hPriceChange_rise (symbol : string) (s : State)
    (oldest newest : PriceData) (between : list PriceData) :
  history_of s symbol = oldest :: between ++ [newest] ->
  (0 < price oldest)%Z ->
  (price newest * 10000 < UINT256_MODULUS)%Z ->
  (10000 <= price newest * 10000 / price oldest)%Z ->
  get24hPriceChange symbol s
  = Ok (int256_of_uint256 (price newest * 10000 / price oldest - 10000)).
Proof.
  intros Hh Hpos Hfit Hrise. rewrite (get24hPriceChange_eq _ _ _ _ _ Hh).
  unfold checked_mul, checked_div, checked_sub.
  destruct (Z.eqb_spec (price oldest) 0); [lia|].
  destruct (Z.ltb_spec (price newest * 10000) UINT256_MODULUS); [|lia].
  cbn [mbind result_bind].
  destruct (Z.eqb_spec (price oldest) 0); [lia|].
  cbn [mbind result_bind].
  destruct (Z.leb_spec 10000 (price newest * 10000 / price oldest)); [|lia].
  reflexivity.
Qed.

Lemma int256_of_small (x : Z) : (x < 2 ^ 255)%Z -> int256_of_uint256 x = x.
Proof.
  intros Hx. unfold int256_of_uint256.
  destruct (Z.ltb_spec x (2 ^ 255)); [reflexivity|lia].
Qed.

Example get24hPriceChange_rise_example :
  get24hPriceChange "XRP"
    (run [(quoting 5 1700000000 100, CallUpdatePriceData "XRP");
          (quoting 5 1700003600 110, CallUpdatePriceData "XRP")] fresh)
  = Ok 1000%Z.
Proof. vm_compute. reflexivity. Qed.

(** C3. Where the newest price is below the oldest (nonzero) one, the
    unsigned subtraction [ratio - 10000] underflows and the call reverts with
    the arithmetic panic instead of returning a negative number of basis
    points. *)
Theorem get24hPriceChange_reverts_on_price_drop (symbol : string) (s : State)
    (oldest newest : PriceData) (between : list PriceData) :
  history_of s symbol = oldest :: between ++ [newest] ->
  (0 <= price newest < price oldest)%Z ->
  get24hPriceChange symbol s = Revert (Panic PANIC_ARITHMETIC).
Proof.
  intros Hh [Hnonneg Hdrop]. rewrite (get24hPriceChange_eq _ _ _ _ _ Hh).
  unfold checked_mul, checked_div, checked_sub.
  destruct (Z.eqb_spec (price oldest) 0); [lia|].
  destruct (Z.ltb_spec (price newest * 10000) UINT256_MODULUS); [|reflexivity].
  cbn [mbind result_bind].
  destruct (Z.eqb_spec (price oldest) 0); [lia|].
  cbn [mbind result_bind].
  assert (Hratio : (price newest * 10000 / price oldest < 10000)%Z).
  { apply Z.div_lt_upper_bound; lia. }
  destruct (Z.leb_spec 10000 (price newest * 10000 / price oldest)); [lia|].
  reflexivity.
Qed.

Lemma get24hPriceChange_reverts_on_price_drop_witness :
  price <$> history_of
    (run [(quoting 5 1700000000 100, CallUpdatePriceData "XRP");
          (quoting 5 1700003600 90, CallUpdatePriceData "XRP")] fresh) "XRP"
  = [100; 90]%Z /\
  get24hPriceChange "XRP"
    (run [(quoting 5 1700000000 100, CallUpdatePriceData "XRP");
          (quoting 5 1700003600 90, CallUpdatePriceData "XRP")] fresh)
  = Revert (Panic PANIC_ARITHMETIC).
Proof.
  split; [vm_compute; reflexivity|].
  apply (get24hPriceChange_reverts_on_price_drop "XRP" _
           (mkPriceData 100 1700000000 7) (mkPriceData 90 1700003600 7) []).
  - vm_compute. reflexivity.
  - cbn [price]. lia.
Defined.

(** C4. With two samples or more and an oldest price of 0 the function
    returns 0: it does not reach the division. *)
Theorem get24hPriceChange_zero_oldest (symbol : string) (s : State) :
  (2 <= length (history_of s symbol))%nat ->
  price <$> head (history_of s symbol) = Some 0%Z ->
  get24hPriceChange symbol s = Ok 0%Z.
Proof.
  intros Hlen Hzero.
  destruct (two_samples _ Hlen) as (oldest & between & newest & Hh).
  rewrite (get24hPriceChange_eq _ _ _ _ _ Hh).
  rewrite Hh in Hzero. cbn in Hzero. injection Hzero as ->. reflexivity.
Qed.

Lemma get24hPriceChange_zero_oldest_witness :
  price <$> history_of
    (run [(quoting 5 1700000000 0, CallUpdatePriceData "XRP");
          (quoting 5 1700003600 110, CallUpdatePriceData "XRP")] fresh) "XRP"
  = [0; 110]%Z /\
  get24hPriceChange "XRP"
    (run [(quoting 5 1700000000 0, CallUpdatePriceData "XRP");
          (quoting 5 1700003600 110, CallUpdatePriceData "XRP")] fresh)
  = Ok 0%Z.
Proof.
  split; [vm_compute; reflexivity|].
  apply get24hPriceChange_zero_oldest.
  - vm_compute. lia.
  - vm_compute. reflexivity.
Defined.

Lemma history_of_absent (symbol : string) (s : State) :
  priceHistory s !! symbol = None -> history_of s symbol = [].
Proof. intros Habsent. unfold history_of. now rewrite Habsent. Qed.

Lemma getLatestPriceData_nil (symbol : string) (s : State) :
  history_of s symbol = [] -> getLatestPriceData symbol s = Revert NotFound.
Proof. intros Hh. unfold getLatestPriceData. now rewrite Hh. Qed.

(** C7. [getLatestPriceData] reverts with "No price data available" for a
    symbol whose history is empty, in particular for one that was never
    updated, and otherwise returns the price, timestamp and epoch id of the
    last stored sample. *)
Theorem getLatestPriceData_spec (symbol : string) (s : State) :
  (history_of s symbol = [] -> getLatestPriceData symbol s = Revert NotFound) /\
  (priceHistory s !! symbol = None -> getLatestPriceData symbol s = Revert NotFound) /\
  (forall (older : list PriceData) (newest : PriceData),
     history_of s symbol = older ++ [newest] ->
     getLatestPriceData symbol s = Ok (price newest, timestamp newest, epochId newest)).
Proof.
  split; [apply getLatestPriceData_nil|].
  split; [intros Habsent; apply getLatestPriceData_nil, history_of_absent, Habsent|].
  apply getLatestPriceData_snoc.
Qed.

Lemma getLatestPriceData_spec_witness :
  (history_of fresh "XRP" = [] /\ priceHistory fresh !! "XRP" = None /\
   getLatestPriceData "XRP" fresh = Revert NotFound) /\
  (priceHistory (run (hourly_updates 1 3) fresh) !! "BTC" = None /\
   getLatestPriceData "BTC" (run (hourly_updates 1 3) fresh) = Revert NotFound) /\
  (history_of (run (hourly_updates 1 3) fresh) "XRP"
   = [mkPriceData 1 1700003600 7; mkPriceData 2 1700007200 7] ++ [mkPriceData 3 1700010800 7] /\
   getLatestPriceData "XRP" (run (hourly_updates 1 3) fresh) = Ok (3, 1700010800, 7)%Z).
Proof.
  refine (conj (conj _ (conj _ _)) (conj (conj _ _) (conj _ _)));
    [vm_compute; reflexivity|vm_compute; reflexivity| |vm_compute; reflexivity|
     |vm_compute; reflexivity| ].
  - apply (proj1 (getLatestPriceData_spec "XRP" fresh)). vm_compute. reflexivity.
  - apply (proj1 (proj2 (getLatestPriceData_spec "BTC" (run (hourly_updates 1 3) fresh)))).
    vm_compute. reflexivity.
  - apply (proj2 (proj2 (getLatestPriceData_spec "XRP" (run (hourly_updates 1 3) fresh)))
             [mkPriceData 1 1700003600 7; mkPriceData 2 1700007200 7]
             (mkPriceData 3 1700010800 7)).
    vm_compute. reflexivity.
Defined.

(** C8. [get24hPriceChange] reverts with "Insufficient price history" for a
    symbol with no sample or exactly one. *)
Theorem get24hPriceChange_insufficient (symbol : string) (s : State) :
  (length (history_of s symbol) < 2)%nat ->
  get24hPriceChange symbol s = Revert InsufficientHistory.
Proof.
  intros Hlen. unfold get24hPriceChange.
  destruct (Nat.ltb_spec 1 (length (history_of s symbol))); [lia|reflexivity].
Qed.

Lemma get24hPriceChange_insufficient_witness :
  (length (history_of fresh "XRP") = 0%nat /\
   get24hPriceChange "XRP" fresh = Revert InsufficientHistory) /\
  (length (history_of (run (hourly_updates 1 1) fresh) "XRP") = 1%nat /\
   get24hPriceChange "XRP" (run (hourly_updates 1 1) fresh) = Revert InsufficientHistory).
Proof.
  refine (conj (conj _ _) (conj _ _));
    [vm_compute; reflexivity| |vm_compute; reflexivity| ];
    apply get24hPriceChange_insufficient; vm_compute; lia.
Defined.

(** C9. [getPriceHistory] always returns: the prices, timestamps and epoch
    ids of the stored samples, in stored (oldest to newest) order, which for a
    symbol without an entry are three empty arrays. *)
Theorem getPriceHistory_total (symbol : string) (s : State) :
  getPriceHistory symbol s
  = Ok (price <$> history_of s symbol,
        timestamp <$> history_of s symbol,
        epochId <$> history_of s symbol) /\
  (priceHistory s !! symbol = None -> getPriceHistory symbol s = Ok ([], [], [])).
Proof.
  split; [apply getPriceHistory_eq|].
  intros Habsent. rewrite getPriceHistory_eq, (history_of_absent _ _ Habsent). reflexivity.
Qed.

Lemma getPriceHistory_total_witness :
  priceHistory (run (hourly_updates 1 3) fresh) !! "BTC" = None /\
  getPriceHistory "BTC" (run (hourly_updates 1 3) fresh) = Ok ([], [], []) /\
  getPriceHistory "XRP" (run (hourly_updates 1 3) fresh)
  = Ok ([1; 2; 3], [1700003600; 1700007200; 1700010800], [7; 7; 7])%Z.
Proof.
  split; [vm_compute; reflexivity|]. split.
  - apply (proj2 (getPriceHistory_total "BTC" (run (hourly_updates 1 3) fresh))).
    vm_compute. reflexivity.
  - rewrite (proj1 (getPriceHistory_total "XRP" (run (hourly_updates 1 3) fresh))).
    vm_compute. reflexivity.
Defined.

(** ** Staleness *)

Lemma needsUpdate_eq (e : Env) (symbol : string) (s : State) :
  (last_update_of s symbol <= block_timestamp e)%Z ->
  needsUpdate e symbol s = Ok (ONE_HOUR <=? block_timestamp e - last_update_of s symbol)%Z.
Proof.
  intros Hle. unfold needsUpdate, checked_sub.
  destruct (Z.leb_spec (last_update_of s symbol) (block_timestamp e)); [reflexivity|lia].
Qed.

Lemma updatePriceData_inv (e : Env) (symbol : string) (s s' : State) (evs : list Event) :
  updatePriceData e symbol s = Ok (evs, s') ->
  exists p t ep : Z, s' = updated e symbol p t ep s.
Proof.
  rewrite updatePriceData_eq.
  destruct (reentrancy_entered s); [discriminate|].
  destruct (registry_getCurrentPrice e (ftsoRegistry s) symbol) as [[p t]|]; [|discriminate].
  destruct (manager_getCurrentEpochId e (ftsoManager s)) as [ep|]; [|discriminate].
  intros [= _ <-]. now exists p, t, ep.
Qed.

Lemma last_update_after_update (e : Env) (symbol : string) (s s' : State) (evs : list Event) :
  updatePriceData e symbol s = Ok (evs, s') ->
  last_update_of s' symbol = block_timestamp e.
Proof.
  intros Hupd. destruct (updatePriceData_inv _ _ _ _ _ Hupd) as (p & t & ep & ->).
  rewrite last_update_of_updated. now destruct (decide (symbol = symbol)).
Qed.

(** C5, as stated, fails in the first hour of the epoch: at block time 100 a
    symbol that was never updated is not due. *)
Lemma needsUpdate_not_due_before_first_hour :
  lastUpdateTime fresh !! "XRP" = None /\
  needsUpdate (quoting 5 100 1) "XRP" fresh = Ok false.
Proof. split; vm_compute; reflexivity. Qed.

(** C5, amended. [needsUpdate] returns [true] exactly when
    [now - lastUpdateTime[symbol]] is at least one hour. A symbol that was
    never updated reads a last update of 0, so before any update it is due
    exactly when the block time itself is at least one hour. Right after a
    successful update at [now] the symbol is not due at [now], and it is due
    again at every [now'] with [now' - now] at least one hour. *)
Theorem needsUpdate_spec :
  (forall (e : Env) (symbol : string) (s : State),
     needsUpdate e symbol s = Ok true <->
     (ONE_HOUR <= block_timestamp e - last_update_of s symbol)%Z) /\
  (forall (e : Env) (symbol : string) (s : State),
     lastUpdateTime s !! symbol = None ->
     (0 <= block_timestamp e)%Z ->
     needsUpdate e symbol s = Ok (ONE_HOUR <=? block_timestamp e)%Z) /\
  (forall (e : Env) (symbol : string) (s s' : State) (evs : list Event),
     updatePriceData e symbol s = Ok (evs, s') ->
     needsUpdate e symbol s' = Ok false /\
     forall e' : Env,
       (ONE_HOUR <= block_timestamp e' - block_timestamp e)%Z ->
       needsUpdate e' symbol s' = Ok true).
Proof.
  split; [|split].
  - intros e symbol s. unfold needsUpdate, checked_sub, ONE_HOUR.
    destruct (Z.leb_spec (last_update_of s symbol) (block_timestamp e)) as [Hle|Hlt];
      cbn [mbind result_bind].
    + rewrite <- Z.leb_le. split; [now intros [= ->]|now intros ->].
    + split; [discriminate|lia].
  - intros e symbol s Hnever Hnow.
    assert (Hzero : last_update_of s symbol = 0%Z).
    { unfold last_update_of. now rewrite Hnever. }
    rewrite needsUpdate_eq by lia. now rewrite Hzero, Z.sub_0_r.
  - intros e symbol s s' evs Hupd.
    pose proof (last_update_after_update _ _ _ _ _ Hupd) as Hlast.
    split.
    + rewrite needsUpdate_eq by lia. rewrite Hlast, Z.sub_diag. reflexivity.
    + intros e' Hlater.
      rewrite needsUpdate_eq by (rewrite Hlast; unfold ONE_HOUR in Hlater; lia).
      f_equal. apply Z.leb_le. rewrite Hlast. exact Hlater.
Qed.

Lemma needsUpdate_spec_witness :
  (needsUpdate (quoting 5 1700009000 1) "XRP" (run (hourly_updates 1 1) fresh) = Ok true <->
   (ONE_HOUR <= 1700009000 - last_update_of (run (hourly_updates 1 1) fresh) "XRP")%Z) /\
  (lastUpdateTime fresh !! "XRP" = None /\
   needsUpdate (quoting 5 1700000000 1) "XRP" fresh = Ok true /\
   needsUpdate (quoting 5 100 1) "XRP" fresh = Ok false) /\
  (updatePriceData (quoting 5 1700003600 1) "XRP" fresh
   = Ok ([PriceUpdated "XRP" 1 1700003600 7], run (hourly_updates 1 1) fresh) /\
   needsUpdate (quoting 5 1700003600 1) "XRP" (run (hourly_updates 1 1) fresh) = Ok false /\
   needsUpdate (quoting 5 1700007200 1) "XRP" (run (hourly_updates 1 1) fresh) = Ok true).
Proof.
  destruct needsUpdate_spec as (Hiff & Hnever & Hafter).
  assert (Hfresh : lastUpdateTime fresh !! "XRP" = None) by (vm_compute; reflexivity).
  assert (Hupd : updatePriceData (quoting 5 1700003600 1) "XRP" fresh
                 = Ok ([PriceUpdated "XRP" 1 1700003600 7], run (hourly_updates 1 1) fresh))
    by (vm_compute; reflexivity).
  split; [|split].
  - apply (Hiff (quoting 5 1700009000 1) "XRP" (run (hourly_updates 1 1) fresh)).
  - split; [exact Hfresh|]. split.
    + apply (Hnever (quoting 5 1700000000 1) "XRP" fresh Hfresh). vm_compute. discriminate.
    + apply (Hnever (quoting 5 100 1) "XRP" fresh Hfresh). vm_compute. discriminate.
  - destruct (Hafter _ _ _ _ _ Hupd) as [Hnow Hlater].
    split; [exact Hupd|]. split; [exact Hnow|].
    apply (Hlater (quoting 5 1700007200 1)). vm_compute. discriminate.
Defined.

(** ** Access control *)

(** C6. Called by anyone but the owner, [updateFtsoRegistry] and
    [updateFtsoManager] revert with the owner check's message whatever the
    new address, and the transaction leaves the contract, and so the stored
    reference, as it was; called by the owner with the zero address they
    revert with "Invalid address"; they return exactly when the owner passes
    a nonzero address, and then store it. *)
Theorem feed_setters_owner_only (e : Env) (a : address) (s : State) :
  (msg_sender e <> owner s ->
     updateFtsoRegistry e a s = Revert Unauthorized /\
     ftsoRegistry (exec (e, CallUpdateFtsoRegistry a) s) = ftsoRegistry s /\
     exec (e, CallUpdateFtsoRegistry a) s = s /\
     updateFtsoManager e a s = Revert Unauthorized /\
     ftsoManager (exec (e, CallUpdateFtsoManager a) s) = ftsoManager s /\
     exec (e, CallUpdateFtsoManager a) s = s) /\
  (msg_sender e = owner s ->
     updateFtsoRegistry e 0%Z s = Revert InvalidReference /\
     updateFtsoManager e 0%Z s = Revert InvalidReference) /\
  (forall r : unit * State,
     updateFtsoRegistry e a s = Ok r <->
     msg_sender e = owner s /\ a <> 0%Z /\ r = (tt, set_ftsoRegistry a s)) /\
  (forall r : unit * State,
     updateFtsoManager e a s = Ok r <->
     msg_sender e = owner s /\ a <> 0%Z /\ r = (tt, set_ftsoManager a s)).
Proof.
  cbn [exec]. unfold updateFtsoRegistry, updateFtsoManager, onlyOwner.
  destruct (decide (msg_sender e = owner s)) as [Howner|Hother].
  - rewrite (bool_decide_eq_true_2 _ Howner). cbn [require mbind result_bind].
    split; [intros Hne; contradiction|].
    split; [intros _; split; reflexivity|].
    destruct (decide (a = 0%Z)) as [Hzero|Hnonzero].
    + rewrite (bool_decide_eq_true_2 _ Hzero). cbn.
      split; intros r; (split; [discriminate|intros (_ & Hne & _); contradiction]).
    + rewrite (bool_decide_eq_false_2 _ Hnonzero). cbn.
      split; intros r; (split; [intros [= <-]; auto|intros (_ & _ & ->); reflexivity]).
  - rewrite (bool_decide_eq_false_2 _ Hother). cbn.
    split; [intros _; repeat split|].
    split; [intros Heq; contradiction|].
    split; intros r; (split; [discriminate|intros (Heq & _); contradiction]).
Qed.

Lemma feed_setters_owner_only_witness :
  (5%Z <> owner fresh /\
   updateFtsoRegistry (quoting 5 1700000000 1) 9%Z fresh = Revert Unauthorized /\
   ftsoRegistry (exec (quoting 5 1700000000 1, CallUpdateFtsoRegistry 9%Z) fresh) = 2%Z /\
   updateFtsoManager (quoting 5 1700000000 1) 9%Z fresh = Revert Unauthorized /\
   ftsoManager (exec (quoting 5 1700000000 1, CallUpdateFtsoManager 9%Z) fresh) = 3%Z) /\
  (1%Z = owner fresh /\
   updateFtsoRegistry (quoting 1 1700000000 1) 0%Z fresh = Revert InvalidReference /\
   updateFtsoManager (quoting 1 1700000000 1) 0%Z fresh = Revert InvalidReference) /\
  (updateFtsoRegistry (quoting 1 1700000000 1) 9%Z fresh = Ok (tt, set_ftsoRegistry 9%Z fresh) /\
   updateFtsoManager (quoting 1 1700000000 1) 9%Z fresh = Ok (tt, set_ftsoManager 9%Z fresh)).
Proof.
  assert (Hother : msg_sender (quoting 5 1700000000 1) <> owner fresh) by discriminate.
  assert (Howner : msg_sender (quoting 1 1700000000 1) = owner fresh) by reflexivity.
  assert (Hnonzero : 9%Z <> 0%Z) by discriminate.
  destruct (feed_setters_owner_only (quoting 5 1700000000 1) 9%Z fresh)
    as (Hdenied & _ & _ & _).
  destruct (Hdenied Hother) as (Hreg & Hregref & _ & Hmgr & Hmgrref & _).
  destruct (feed_setters_owner_only (quoting 1 1700000000 1) 9%Z fresh)
    as (_ & Hinvalid & Hregok & Hmgrok).
  destruct (Hinvalid Howner) as (Hreg0 & Hmgr0).
  split; [|split].
  - split; [exact Hother|]. split; [exact Hreg|]. split; [exact Hregref|].
    split; [exact Hmgr|exact Hmgrref].
  - split; [exact Howner|]. split; [exact Hreg0|exact Hmgr0].
  - split.
    + apply (proj2 (Hregok _)). auto.
    + apply (proj2 (Hmgrok _)). auto.
Defined.

(** ** Transactions in closed form *)

Lemma exec_update_eq (e : Env) (symbol : string) (s : State) :
  exec (e, CallUpdatePriceData symbol) s =
  if reentrancy_entered s then s
  else match quoted e (ftsoRegistry s) (ftsoManager s) symbol with
       | Some x => updated e symbol (price x) (timestamp x) (epochId x) s
       | None => s
       end.
Proof.
  cbn [exec]. rewrite updatePriceData_eq. unfold quoted.
  destruct (reentrancy_entered s); [reflexivity|].
  destruct (registry_getCurrentPrice e (ftsoRegistry s) symbol) as [[p t]|]; [|reflexivity].
  cbn. now destruct (manager_getCurrentEpochId e (ftsoManager s)).
Qed.

Lemma exec_registry_eq (e : Env) (a : address) (s : State) :
  exec (e, CallUpdateFtsoRegistry a) s =
  if bool_decide (msg_sender e = owner s) && negb (bool_decide (a = 0%Z))
  then set_ftsoRegistry a s else s.
Proof.
  cbn [exec]. unfold updateFtsoRegistry, onlyOwner.
  destruct (bool_decide (msg_sender e = owner s)); [|reflexivity].
  now destruct (bool_decide (a = 0%Z)).
Qed.

Lemma exec_manager_eq (e : Env) (a : address) (s : State) :
  exec (e, CallUpdateFtsoManager a) s =
  if bool_decide (msg_sender e = owner s) && negb (bool_decide (a = 0%Z))
  then set_ftsoManager a s else s.
Proof.
  cbn [exec]. unfold updateFtsoManager, onlyOwner.
  destruct (bool_decide (msg_sender e = owner s)); [|reflexivity].
  now destruct (bool_decide (a = 0%Z)).
Qed.

Lemma run_cons (tx : Env * Call) (txs : list (Env * Call)) (s : State) :
  run (tx :: txs) s = run txs (exec tx s).
Proof. reflexivity. Qed.

(** The guard is never left taken by a transaction. *)
Lemma guard_exec (tx : Env * Call) (s : State) :
  reentrancy_entered (exec tx s) = reentrancy_entered s.
Proof.
  destruct tx as [e [symbol|a|a]].
  - rewrite exec_update_eq. destruct (reentrancy_entered s) eqn:Hg; [exact Hg|].
    now destruct (quoted e (ftsoRegistry s) (ftsoManager s) symbol).
  - rewrite exec_registry_eq. now destruct (_ && _).
  - rewrite exec_manager_eq. now destruct (_ && _).
Qed.

Lemma guard_run (txs : list (Env * Call)) (s : State) :
  reentrancy_entered (run txs s) = reentrancy_entered s.
Proof.
  revert s. induction txs as [|tx txs IH]; intros s; [reflexivity|].
  now rewrite run_cons, IH, guard_exec.
Qed.

Lemma guard_deployed (d r m : address) (txs : list (Env * Call)) :
  reentrancy_entered (run txs (genesis d r m)) = false.
Proof. now rewrite guard_run. Qed.

Lemma updatePriceData_quoted (e : Env) (symbol : string) (s : State) :
  reentrancy_entered s = false ->
  updatePriceData e symbol s =
  match quoted e (ftsoRegistry s) (ftsoManager s) symbol with
  | Some x => Ok ([PriceUpdated symbol (price x) (timestamp x) (epochId x)],
                  updated e symbol (price x) (timestamp x) (epochId x) s)
  | None => Revert CallFailed
  end.
Proof.
  intros Hg. rewrite updatePriceData_eq, Hg. unfold quoted.
  destruct (registry_getCurrentPrice e (ftsoRegistry s) symbol) as [[p t]|]; [|reflexivity].
  cbn. now destruct (manager_getCurrentEpochId e (ftsoManager s)).
Qed.

(** ** Deployment *)

(** X1. The constructor rejects a zero registry address first, then a zero
    manager address, each with its own message; with two nonzero addresses it
    stores them and starts with no history and no update time for any
    symbol. *)
Theorem constructor_checks (e : Env) (reg mgr : address) :
  (reg = 0%Z ->
   constructor e reg mgr = Revert (Error "Invalid FTSO Registry address")) /\
  (reg <> 0%Z -> mgr = 0%Z ->
   constructor e reg mgr = Revert (Error "Invalid FTSO Manager address")) /\
  (reg <> 0%Z -> mgr <> 0%Z ->
   exists s : State,
     constructor e reg mgr = Ok s /\
     ftsoRegistry s = reg /\ ftsoManager s = mgr /\
     forall symbol : string, history_of s symbol = [] /\ last_update_of s symbol = 0%Z).
Proof.
  unfold constructor. repeat split.
  - intros ->. reflexivity.
  - intros Hreg ->. rewrite (bool_decide_eq_false_2 _ Hreg). reflexivity.
  - intros Hreg Hmgr.
    rewrite (bool_decide_eq_false_2 _ Hreg), (bool_decide_eq_false_2 _ Hmgr).
    eexists. split; [reflexivity|]. repeat split.
Qed.

Lemma constructor_checks_witness :
  constructor (quoting 1 1700000000 1) 0%Z 3%Z = Revert (Error "Invalid FTSO Registry address") /\
  constructor (quoting 1 1700000000 1) 2%Z 0%Z = Revert (Error "Invalid FTSO Manager address") /\
  exists s : State,
    constructor (quoting 1 1700000000 1) 2%Z 3%Z = Ok s /\
    ftsoRegistry s = 2%Z /\ ftsoManager s = 3%Z /\
    forall symbol : string, history_of s symbol = [] /\ last_update_of s symbol = 0%Z.
Proof.
  assert (H2 : 2%Z <> 0%Z) by discriminate.
  assert (H3 : 3%Z <> 0%Z) by discriminate.
  split; [|split].
  - exact (proj1 (constructor_checks (quoting 1 1700000000 1) 0%Z 3%Z) eq_refl).
  - exact (proj1 (proj2 (constructor_checks (quoting 1 1700000000 1) 2%Z 0%Z)) H2 eq_refl).
  - exact (proj2 (proj2 (constructor_checks (quoting 1 1700000000 1) 2%Z 3%Z)) H2 H3).
Defined.

(** ** Updates *)

(** X2. In every state the contract reaches after deployment an update of any
    symbol by any caller returns exactly when the registry and the manager
    both answer, and otherwise reverts with the failure of the feed call: the
    eviction loop and [pop] never go out of range and the guard is never
    found taken. *)
Theorem update_returns_iff_feed_answers
    (d r m : address) (txs : list (Env * Call)) (e : Env) (symbol : string) :
  let s := run txs (genesis d r m) in
  ((exists out, updatePriceData e symbol s = Ok out) <->
   is_Some (quoted e (ftsoRegistry s) (ftsoManager s) symbol)) /\
  (updatePriceData e symbol s = Revert CallFailed <->
   quoted e (ftsoRegistry s) (ftsoManager s) symbol = None).
Proof.
  intros s. rewrite (updatePriceData_quoted e symbol s (guard_deployed d r m txs)).
  destruct (quoted e (ftsoRegistry s) (ftsoManager s) symbol) as [x|].
  - split; split; try discriminate; eauto.
  - split; split; try reflexivity.
    + intros [out Hout]. discriminate.
    + intros [x Hx]. discriminate.
Qed.

(** X3. A successful update can be read back: the event it emits and the
    latest price data of the symbol both carry the registry's price and
    timestamp and the manager's epoch id, and the symbol's last update time is
    the block time. *)
Theorem update_then_read_latest
    (e : Env) (symbol : string) (s s' : State) (evs : list Event) :
  updatePriceData e symbol s = Ok (evs, s') ->
  exists p t ep : Z,
    registry_getCurrentPrice e (ftsoRegistry s) symbol = Some (p, t) /\
    manager_getCurrentEpochId e (ftsoManager s) = Some ep /\
    evs = [PriceUpdated symbol p t ep] /\
    getLatestPriceData symbol s' = Ok (p, t, ep) /\
    last_update_of s' symbol = block_timestamp e.
Proof.
  rewrite updatePriceData_eq.
  destruct (reentrancy_entered s); [discriminate|].
  destruct (registry_getCurrentPrice e (ftsoRegistry s) symbol) as [[p t]|]; [|discriminate].
  destruct (manager_getCurrentEpochId e (ftsoManager s)) as [ep|]; [|discriminate].
  intros [= <- <-]. exists p, t, ep. repeat split.
  - apply (getLatestPriceData_snoc _ _ (retained (history_of s symbol)) (mkPriceData p t ep)).
    rewrite history_of_updated. now destruct (decide (symbol = symbol)).
  - rewrite last_update_of_updated. now destruct (decide (symbol = symbol)).
Qed.

Lemma update_then_read_latest_witness :
  exists p t ep : Z,
    registry_getCurrentPrice (quoting 5 1700003600 42) (ftsoRegistry fresh) "XRP" = Some (p, t) /\
    manager_getCurrentEpochId (quoting 5 1700003600 42) (ftsoManager fresh) = Some ep /\
    [PriceUpdated "XRP" 42 1700003600 7] = [PriceUpdated "XRP" p t ep] /\
    getLatestPriceData "XRP" (exec (quoting 5 1700003600 42, CallUpdatePriceData "XRP") fresh)
    = Ok (p, t, ep) /\
    last_update_of (exec (quoting 5 1700003600 42, CallUpdatePriceData "XRP") fresh) "XRP"
    = 1700003600%Z.
Proof.
  apply (update_then_read_latest (quoting 5 1700003600 42) "XRP" fresh).
  vm_compute. reflexivity.
Defined.

(** ** The history as a sliding window *)

Lemma window_short {A} (l : list A) :
  (length l <= MAX_HISTORY_LENGTH)%nat -> window l = l.
Proof.
  intros Hle. unfold window.
  replace (length l - MAX_HISTORY_LENGTH)%nat with 0%nat by lia. reflexivity.
Qed.

Lemma window_retained_app (h rest : list PriceData) (x : PriceData) :
  (length h <= MAX_HISTORY_LENGTH)%nat ->
  window ((retained h ++ [x]) ++ rest) = window (h ++ x :: rest).
Proof.
  intros Hle. unfold retained.
  destruct (Nat.leb_spec MAX_HISTORY_LENGTH (length h)) as [Hfull|Hroom].
  - destruct h as [|y h]; [unfold MAX_HISTORY_LENGTH in Hfull; cbn in Hfull; lia|].
    cbn [drop]. rewrite drop_0. unfold window.
    rewrite <- (app_assoc h [x] rest). cbn [app].
    rewrite !length_app. cbn [length app]. rewrite length_app. cbn [length].
    replace (S (length h + S (length rest)) - MAX_HISTORY_LENGTH)%nat
      with (S (length h + S (length rest) - MAX_HISTORY_LENGTH))%nat
      by (unfold MAX_HISTORY_LENGTH in *; cbn [length] in *; lia).
    reflexivity.
  - now rewrite <- app_assoc.
Qed.

Lemma updated_registry (e : Env) (symbol : string) (p t ep : Z) (s : State) :
  ftsoRegistry (updated e symbol p t ep s) = ftsoRegistry s.
Proof. reflexivity. Qed.

Lemma updated_manager (e : Env) (symbol : string) (p t ep : Z) (s : State) :
  ftsoManager (updated e symbol p t ep s) = ftsoManager s.
Proof. reflexivity. Qed.

Lemma history_after_updates (symbol : string) (es : list Env) (s : State) :
  reentrancy_entered s = false ->
  (length (history_of s symbol) <= MAX_HISTORY_LENGTH)%nat ->
  history_of (run (updates symbol es) s) symbol
  = window (history_of s symbol
            ++ omap (fun e => quoted e (ftsoRegistry s) (ftsoManager s) symbol) es).
Proof.
  revert s. induction es as [|e es IH]; intros s Hg Hle.
  - cbn. rewrite app_nil_r. symmetry. now apply window_short.
  - unfold updates. rewrite fmap_cons. fold (updates symbol es).
    rewrite run_cons, exec_update_eq, Hg. cbn [omap list_omap].
    destruct (quoted e (ftsoRegistry s) (ftsoManager s) symbol) as [x|].
    + rewrite IH.
      * rewrite updated_registry, updated_manager, history_of_updated.
        destruct (decide (symbol = symbol)); [|congruence].
        destruct x as [p t ep]. cbn [price timestamp epochId].
        now apply window_retained_app.
      * reflexivity.
      * rewrite history_of_updated. destruct (decide (symbol = symbol)); [|congruence].
        now apply length_retained_snoc.
    + now apply IH.
Qed.

(** X4. After any sequence of [updatePriceData] calls on one symbol since
    deployment, the symbol's history is the last 24 of the samples fetched by
    the calls that succeeded, in call order; a failed call contributes
    nothing. *)
Theorem history_is_window_of_fetched_samples
    (d r m : address) (symbol : string) (es : list Env) :
  history_of (run (updates symbol es) (genesis d r m)) symbol
  = window (omap (fun e => quoted e r m symbol) es).
Proof.
  rewrite history_after_updates; [reflexivity|reflexivity|].
  apply bounded_genesis.
Qed.

(** X5. Twenty-four or more successful updates of a symbol replace its
    history entirely: whatever the contract held before, the history is then
    the last 24 fetched samples. *)
Theorem full_round_of_updates_replaces_history
    (d r m : address) (txs : list (Env * Call)) (symbol : string) (es : list Env) :
  let s := run txs (genesis d r m) in
  Forall (fun e => is_Some (quoted e (ftsoRegistry s) (ftsoManager s) symbol)) es ->
  (MAX_HISTORY_LENGTH <= length es)%nat ->
  history_of (run (updates symbol es) s) symbol
  = window (omap (fun e => quoted e (ftsoRegistry s) (ftsoManager s) symbol) es).
Proof.
  intros s Hall Hlen.
  rewrite history_after_updates;
    [|apply guard_deployed|apply bounded_run, bounded_genesis].
  set (samples := omap _ es).
  assert (Hsamples : length samples = length es).
  { subst samples. clear Hlen. induction Hall as [|e es [x Hx] _ IH]; [reflexivity|].
    cbn [omap list_omap]. rewrite Hx. cbn [length]. now rewrite IH. }
  unfold window. rewrite length_app.
  replace (length (history_of s symbol) + length samples - MAX_HISTORY_LENGTH)%nat
    with (length (history_of s symbol) + (length samples - MAX_HISTORY_LENGTH))%nat by lia.
  now rewrite drop_app_add.
Qed.

Lemma full_round_of_updates_replaces_history_witness :
  price <$> history_of (run (hourly_updates 1 3) fresh) "XRP" = [1; 2; 3]%Z /\
  price <$> history_of
    (run (updates "XRP" (replicate 24 (quoting 9 1700200000 50)))
         (run (hourly_updates 1 3) fresh)) "XRP"
  = replicate 24 50%Z.
Proof.
  split; [vm_compute; reflexivity|].
  change fresh with (genesis 1%Z 2%Z 3%Z).
  rewrite (full_round_of_updates_replaces_history 1%Z 2%Z 3%Z (hourly_updates 1 3) "XRP"
             (replicate 24 (quoting 9 1700200000 50))).
  - vm_compute. reflexivity.
  - apply Forall_replicate. vm_compute. eauto.
  - vm_compute. lia.
Defined.

(** ** The price change in full *)

Lemma scaled_ratio_ge (newest oldest : Z) :
  (0 < oldest)%Z ->
  (10000 <= newest * 10000 / oldest)%Z <-> (oldest <= newest)%Z.
Proof.
  intros Hpos. split; intros H.
  - destruct (Z.le_gt_cases oldest newest) as [Hle|Hgt]; [exact Hle|].
    assert (newest * 10000 / oldest < 10000)%Z by (apply Z.div_lt_upper_bound; lia).
    lia.
  - apply Z.div_le_lower_bound; lia.
Qed.

(** X6. With two samples or more, [uint256] prices and a nonzero oldest
    price, [get24hPriceChange] returns exactly when the newest price is not
    below the oldest and its product with 10000 fits in [uint256]; in every
    other case it reverts with the arithmetic panic. *)
Theorem get24hPriceChange_returns_iff (symbol : string) (s : State)
    (oldest newest : PriceData) (between : list PriceData) :
  history_of s symbol = oldest :: between ++ [newest] ->
  uint256 (price oldest) -> uint256 (price newest) -> price oldest <> 0%Z ->
  ((exists change : Z, get24hPriceChange symbol s = Ok change) <->
   (price oldest <= price newest)%Z /\ (price newest * 10000 < UINT256_MODULUS)%Z) /\
  (get24hPriceChange symbol s = Revert (Panic PANIC_ARITHMETIC) <->
   (price newest < price oldest)%Z \/ (UINT256_MODULUS <= price newest * 10000)%Z).
Proof.
  intros Hh [Ho _] [Hn _] Hnz. rewrite (get24hPriceChange_eq _ _ _ _ _ Hh).
  assert (Hpos : (0 < price oldest)%Z) by lia.
  destruct (scaled_ratio_ge (price newest) (price oldest) Hpos) as [Hup Hdown].
  unfold checked_mul, checked_div, checked_sub.
  destruct (Z.eqb_spec (price oldest) 0); [lia|].
  destruct (Z.ltb_spec (price newest * 10000) UINT256_MODULUS) as [Hfit|Hover];
    cbn [mbind result_bind].
  - destruct (Z.leb_spec 10000 (price newest * 10000 / price oldest)) as [Hge|Hlt];
      cbn [mbind result_bind].
    + specialize (Hup Hge). split; split.
      * intros _. split; [exact Hup|exact Hfit].
      * intros _. eexists. reflexivity.
      * discriminate.
      * intros [Hfall|Hbig]; lia.
    + assert (Hfall : (price newest < price oldest)%Z).
      { destruct (Z.le_gt_cases (price oldest) (price newest)) as [Hle|Hgt]; [|lia].
        specialize (Hdown Hle). lia. }
      split; split.
      * intros [c Hc]. discriminate.
      * intros [Hle _]. lia.
      * intros _. now left.
      * reflexivity.
  - split; split.
    + intros [c Hc]. discriminate.
    + intros [_ Hfit]. lia.
    + intros _. now right.
    + reflexivity.
Qed.

Lemma get24hPriceChange_returns_iff_witness :
  ((exists change : Z,
      get24hPriceChange "XRP"
        (run [(quoting 5 1700000000 100, CallUpdatePriceData "XRP");
              (quoting 5 1700003600 125, CallUpdatePriceData "XRP")] fresh) = Ok change) <->
   (100 <= 125)%Z /\ (125 * 10000 < UINT256_MODULUS)%Z) /\
  (get24hPriceChange "XRP"
     (run [(quoting 5 1700000000 100, CallUpdatePriceData "XRP");
           (quoting 5 1700003600 125, CallUpdatePriceData "XRP")] fresh)
   = Revert (Panic PANIC_ARITHMETIC) <->
   (125 < 100)%Z \/ (UINT256_MODULUS <= 125 * 10000)%Z).
Proof.
  apply (get24hPriceChange_returns_iff "XRP" _
           (mkPriceData 100 1700000000 7) (mkPriceData 125 1700003600 7) []).
  - vm_compute. reflexivity.
  - split; vm_compute; [discriminate|reflexivity].
  - split; vm_compute; [discriminate|reflexivity].
  - discriminate.
Defined.

(** X7. Where the oldest price is at least 2, the newest price is not below
    it and the scaled newest price fits in [uint256], the function returns
    [(newest - oldest) * 10000 / oldest] rounded down: the rise in basis
    points, never negative, and 0 for an unchanged price. *)
Theorem get24hPriceChange_rise_in_basis_points (symbol : string) (s : State)
    (oldest newest : PriceData) (between : list PriceData) :
  history_of s symbol = oldest :: between ++ [newest] ->
  (2 <= price oldest <= price newest)%Z ->
  (price newest * 10000 < UINT256_MODULUS)%Z ->
  get24hPriceChange symbol s
  = Ok ((price newest - price oldest) * 10000 / price oldest)%Z /\
  (0 <= (price newest - price oldest) * 10000 / price oldest)%Z /\
  (price newest = price oldest -> get24hPriceChange symbol s = Ok 0%Z).
Proof.
  intros Hh [Hmin Hrise] Hfit.
  assert (Hpos : (0 < price oldest)%Z) by lia.
  assert (Hge : (10000 <= price newest * 10000 / price oldest)%Z)
    by (apply scaled_ratio_ge; lia).
  assert (Heq : (price newest * 10000 / price oldest - 10000
                 = (price newest - price oldest) * 10000 / price oldest)%Z).
  { replace ((price newest - price oldest) * 10000)%Z
      with (price newest * 10000 + (- 10000) * price oldest)%Z by lia.
    rewrite Z.div_add by lia. lia. }
  assert (Hhalf : (price newest * 10000 / price oldest < 2 ^ 255)%Z).
  { apply Z.div_lt_upper_bound; [lia|].
    change UINT256_MODULUS with (2 * 2 ^ 255)%Z in Hfit. nia. }
  assert (Hval : get24hPriceChange symbol s
                 = Ok ((price newest - price oldest) * 10000 / price oldest)%Z).
  { rewrite (get24hPriceChange_rise _ _ _ _ _ Hh Hpos Hfit Hge).
    rewrite int256_of_small by lia. now rewrite Heq. }
  split; [exact Hval|]. split; [lia|].
  intros Hsame. rewrite Hval, Hsame, Z.sub_diag. reflexivity.
Qed.

Lemma get24hPriceChange_rise_in_basis_points_witness :
  get24hPriceChange "XRP"
    (run [(quoting 5 1700000000 300, CallUpdatePriceData "XRP");
          (quoting 5 1700003600 301, CallUpdatePriceData "XRP")] fresh)
  = Ok ((301 - 300) * 10000 / 300)%Z /\
  (0 <= (301 - 300) * 10000 / 300)%Z /\
  (301%Z = 300%Z ->
   get24hPriceChange "XRP"
     (run [(quoting 5 1700000000 300, CallUpdatePriceData "XRP");
           (quoting 5 1700003600 301, CallUpdatePriceData "XRP")] fresh) = Ok 0%Z).
Proof.
  apply (get24hPriceChange_rise_in_basis_points "XRP" _
           (mkPriceData 300 1700000000 7) (mkPriceData 301 1700003600 7) []).
  - vm_compute. reflexivity.
  - cbn [price]. lia.
  - vm_compute. reflexivity.
Defined.

(** X8. With an oldest price of 1 and a scaled newest price of at least
    [2^255 + 10000] that still fits in [uint256], the unchecked conversion to
    [int256] wraps: the function returns the negative number
    [newest * 10000 - 10000 - 2^256] for a rise. *)
Theorem get24hPriceChange_wraps_for_huge_rise (symbol : string) (s : State)
    (oldest newest : PriceData) (between : list PriceData) :
  history_of s symbol = oldest :: between ++ [newest] ->
  price oldest = 1%Z ->
  (2 ^ 255 + 10000 <= price newest * 10000 < UINT256_MODULUS)%Z ->
  get24hPriceChange symbol s = Ok (price newest * 10000 - 10000 - UINT256_MODULUS)%Z /\
  (price newest * 10000 - 10000 - UINT256_MODULUS < 0)%Z.
Proof.
  intros Hh Hone [Hbig Hfit].
  assert (Hge : (10000 <= price newest * 10000 / price oldest)%Z).
  { rewrite Hone, Z.div_1_r. assert (0 < 2 ^ 255)%Z by reflexivity. lia. }
  rewrite (get24hPriceChange_rise _ _ _ _ _ Hh ltac:(lia) Hfit Hge).
  rewrite Hone, Z.div_1_r. unfold int256_of_uint256.
  destruct (Z.ltb_spec (price newest * 10000 - 10000) (2 ^ 255)); [lia|].
  split; [reflexivity|lia].
Qed.

Lemma get24hPriceChange_wraps_for_huge_rise_witness :
  price <$> history_of
    (run [(quoting 5 1700000000 1, CallUpdatePriceData "XRP");
          (quoting 5 1700003600 (2 ^ 255 / 10000 + 2), CallUpdatePriceData "XRP")] fresh) "XRP"
  = [1; 2 ^ 255 / 10000 + 2]%Z /\
  get24hPriceChange "XRP"
    (run [(quoting 5 1700000000 1, CallUpdatePriceData "XRP");
          (quoting 5 1700003600 (2 ^ 255 / 10000 + 2), CallUpdatePriceData "XRP")] fresh)
  = Ok ((2 ^ 255 / 10000 + 2) * 10000 - 10000 - UINT256_MODULUS)%Z /\
  ((2 ^ 255 / 10000 + 2) * 10000 - 10000 - UINT256_MODULUS < 0)%Z.
Proof.
  split; [vm_compute; reflexivity|].
  apply (get24hPriceChange_wraps_for_huge_rise "XRP" _
           (mkPriceData 1 1700000000 7)
           (mkPriceData (2 ^ 255 / 10000 + 2) 1700003600 7) []).
  - vm_compute. reflexivity.
  - reflexivity.
  - cbn [price]. split; vm_compute; [discriminate|reflexivity].
Defined.

(** ** Update times *)

Lemma last_update_of_exec (tx : Env * Call) (s : State) (symbol : string) :
  last_update_of (exec tx s) symbol = last_update_of s symbol \/
  (last_update_of (exec tx s) symbol = block_timestamp tx.1 /\
   history_of (exec tx s) symbol <> []).
Proof.
  destruct tx as [e [symbol'|a|a]]; cbn [fst].
  - rewrite exec_update_eq. destruct (reentrancy_entered s); [now left|].
    destruct (quoted e (ftsoRegistry s) (ftsoManager s) symbol') as [x|]; [|now left].
    rewrite last_update_of_updated, history_of_updated.
    destruct (decide (symbol' = symbol)); [right|now left].
    split; [reflexivity|]. intros Hnil. now apply app_eq_nil in Hnil as [_ ?].
  - left. rewrite exec_registry_eq. now destruct (_ && _).
  - left. rewrite exec_manager_eq. now destruct (_ && _).
Qed.

Lemma history_of_exec_nonempty (tx : Env * Call) (s : State) (symbol : string) :
  history_of s symbol <> [] -> history_of (exec tx s) symbol <> [].
Proof.
  intros Hne. destruct tx as [e [symbol'|a|a]].
  - rewrite exec_update_eq. destruct (reentrancy_entered s); [exact Hne|].
    destruct (quoted e (ftsoRegistry s) (ftsoManager s) symbol') as [x|]; [|exact Hne].
    rewrite history_of_updated. destruct (decide (symbol' = symbol)); [|exact Hne].
    intros Hnil. now apply app_eq_nil in Hnil as [_ ?].
  - now rewrite history_of_exec_registry.
  - now rewrite history_of_exec_manager.
Qed.

Lemma history_of_exec_same_time (tx : Env * Call) (s : State) (symbol : string) :
  last_update_of (exec tx s) symbol = last_update_of s symbol ->
  history_of s symbol = [] ->
  (0 < block_timestamp tx.1)%Z ->
  last_update_of s symbol = 0%Z ->
  history_of (exec tx s) symbol = [].
Proof.
  intros Hsame Hnil Hpos Hzero. destruct tx as [e [symbol'|a|a]]; cbn [fst] in Hpos.
  - revert Hsame. rewrite exec_update_eq. destruct (reentrancy_entered s); [done|].
    destruct (quoted e (ftsoRegistry s) (ftsoManager s) symbol') as [x|]; [|done].
    rewrite last_update_of_updated, history_of_updated.
    destruct (decide (symbol' = symbol)); [lia|done].
  - now rewrite history_of_exec_registry.
  - now rewrite history_of_exec_manager.
Qed.

Lemma last_update_bounded_run (txs : list (Env * Call)) (s : State) (symbol : string) (T : Z) :
  Forall (fun tx => (block_timestamp tx.1 <= T)%Z) txs ->
  (last_update_of s symbol <= T)%Z ->
  (last_update_of (run txs s) symbol <= T)%Z.
Proof.
  intros Hall. revert s. induction Hall as [|tx txs Htx _ IH]; intros s Hs; [exact Hs|].
  rewrite run_cons. apply IH.
  destruct (last_update_of_exec tx s symbol) as [->|[-> _]]; assumption.
Qed.

(** X9. Asked at a block time that is not negative and not before the block
    time of any transaction the contract has executed, [needsUpdate] returns
    for every symbol; asked at a block time before the symbol's last update
    it reverts with the arithmetic panic. *)
Theorem needsUpdate_returns_unless_time_runs_back :
  (forall (d r m : address) (txs : list (Env * Call)) (e : Env) (symbol : string),
     Forall (fun tx => (block_timestamp tx.1 <= block_timestamp e)%Z) txs ->
     (0 <= block_timestamp e)%Z ->
     exists due : bool, needsUpdate e symbol (run txs (genesis d r m)) = Ok due) /\
  (forall (e : Env) (symbol : string) (s : State),
     (block_timestamp e < last_update_of s symbol)%Z ->
     needsUpdate e symbol s = Revert (Panic PANIC_ARITHMETIC)).
Proof.
  split.
  - intros d r m txs e symbol Hall Hnow. eexists. apply needsUpdate_eq.
    apply last_update_bounded_run; [exact Hall|exact Hnow].
  - intros e symbol s Hback. unfold needsUpdate, checked_sub.
    destruct (Z.leb_spec (last_update_of s symbol) (block_timestamp e)); [lia|reflexivity].
Qed.

Lemma needsUpdate_returns_unless_time_runs_back_witness :
  (exists due : bool,
     needsUpdate (quoting 5 1700020000 1) "XRP" (run (hourly_updates 1 3) fresh)
     = Ok due) /\
  needsUpdate (quoting 5 1700000000 1) "XRP" (run (hourly_updates 1 3) fresh)
  = Revert (Panic PANIC_ARITHMETIC).
Proof.
  destruct needsUpdate_returns_unless_time_runs_back as [Hforward Hback].
  split.
  - apply (Hforward 1%Z 2%Z 3%Z); [|vm_compute; discriminate].
    repeat constructor; vm_compute; discriminate.
  - apply Hback. vm_compute. reflexivity.
Defined.

(** X10. As long as every transaction runs at a positive block time, a
    symbol's last update time is 0 exactly when it has no stored sample: the
    two mappings say the same about whether a symbol was ever updated. *)
Theorem never_updated_iff_no_history
    (d r m : address) (txs : list (Env * Call)) (symbol : string) :
  Forall (fun tx => (0 < block_timestamp tx.1)%Z) txs ->
  last_update_of (run txs (genesis d r m)) symbol = 0%Z <->
  history_of (run txs (genesis d r m)) symbol = [].
Proof.
  intros Hall.
  assert (Hinv : forall s,
             ((last_update_of s symbol = 0%Z /\ history_of s symbol = []) \/
              ((0 < last_update_of s symbol)%Z /\ history_of s symbol <> [])) ->
             ((last_update_of (run txs s) symbol = 0%Z /\ history_of (run txs s) symbol = []) \/
              ((0 < last_update_of (run txs s) symbol)%Z /\ history_of (run txs s) symbol <> []))).
  { induction Hall as [|tx txs Htx _ IH]; intros s Hs; [exact Hs|].
    rewrite run_cons. apply IH.
    destruct (last_update_of_exec tx s symbol) as [Hsame|[Hnew Hne]].
    - destruct Hs as [[Hzero Hnil]|[Hpos Hne]].
      + left. split; [now rewrite Hsame|].
        now apply history_of_exec_same_time.
      + right. split; [now rewrite Hsame|]. now apply history_of_exec_nonempty.
    - right. split; [rewrite Hnew; exact Htx|exact Hne]. }
  destruct (Hinv (genesis d r m)) as [[Hzero Hnil]|[Hpos Hne]].
  - left. split; reflexivity.
  - now split.
  - split; [lia|contradiction].
Qed.

Lemma never_updated_iff_no_history_witness :
  (last_update_of (run (hourly_updates 1 3) fresh) "XRP" = 0%Z <->
   history_of (run (hourly_updates 1 3) fresh) "XRP" = []) /\
  (last_update_of (run (hourly_updates 1 3) fresh) "BTC" = 0%Z <->
   history_of (run (hourly_updates 1 3) fresh) "BTC" = []).
Proof.
  assert (Hpos : Forall (fun tx : Env * Call => (0 < block_timestamp tx.1)%Z)
                   (hourly_updates 1 3))
    by (repeat constructor; vm_compute; reflexivity).
  split.
  - exact (never_updated_iff_no_history 1%Z 2%Z 3%Z (hourly_updates 1 3) "XRP" Hpos).
  - exact (never_updated_iff_no_history 1%Z 2%Z 3%Z (hourly_updates 1 3) "BTC" Hpos).
Defined.

(** ** Configuration and data are independent *)

(** X11. None of the three state-changing functions of the contract changes
    the owner; [updatePriceData] leaves both feed addresses as they are; the
    two setters leave every history and every last update time as they are,
    and each leaves the other's address. *)
Theorem configuration_and_data_are_separate
    (e : Env) (symbol other : string) (a : address) (tx : Env * Call) (s : State) :
  owner (exec tx s) = owner s /\
  (ftsoRegistry (exec (e, CallUpdatePriceData symbol) s) = ftsoRegistry s /\
   ftsoManager (exec (e, CallUpdatePriceData symbol) s) = ftsoManager s) /\
  (history_of (exec (e, CallUpdateFtsoRegistry a) s) other = history_of s other /\
   last_update_of (exec (e, CallUpdateFtsoRegistry a) s) other = last_update_of s other /\
   ftsoManager (exec (e, CallUpdateFtsoRegistry a) s) = ftsoManager s) /\
  (history_of (exec (e, CallUpdateFtsoManager a) s) other = history_of s other /\
   last_update_of (exec (e, CallUpdateFtsoManager a) s) other = last_update_of s other /\
   ftsoRegistry (exec (e, CallUpdateFtsoManager a) s) = ftsoRegistry s).
Proof.
  split; [|split; [|split]].
  - destruct tx as [e' [symbol'|a'|a']].
    + rewrite exec_update_eq. destruct (reentrancy_entered s); [reflexivity|].
      now destruct (quoted e' (ftsoRegistry s) (ftsoManager s) symbol').
    + rewrite exec_registry_eq. now destruct (_ && _).
    + rewrite exec_manager_eq. now destruct (_ && _).
  - rewrite exec_update_eq. destruct (reentrancy_entered s); [now split|].
    now destruct (quoted e (ftsoRegistry s) (ftsoManager s) symbol).
  - rewrite exec_registry_eq. now destruct (_ && _).
  - rewrite exec_manager_eq. now destruct (_ && _).
Qed.

(** X12. Once the owner has pointed the contract at a new nonzero registry
    (or manager) address, the next update takes its quote (or epoch) from the
    contract at the new address and from nowhere else: it appends the sample
    the new pair of feeds answers, and changes nothing when one of them
    fails. *)
Theorem update_reads_the_repointed_feed
    (e e' : Env) (a : address) (symbol : string) (s : State) :
  msg_sender e = owner s -> a <> 0%Z -> reentrancy_entered s = false ->
  (ftsoRegistry (exec (e, CallUpdateFtsoRegistry a) s) = a /\
   history_of (exec (e', CallUpdatePriceData symbol) (exec (e, CallUpdateFtsoRegistry a) s)) symbol
   = match quoted e' a (ftsoManager s) symbol with
     | Some x => retained (history_of s symbol) ++ [x]
     | None => history_of s symbol
     end) /\
  (ftsoManager (exec (e, CallUpdateFtsoManager a) s) = a /\
   history_of (exec (e', CallUpdatePriceData symbol) (exec (e, CallUpdateFtsoManager a) s)) symbol
   = match quoted e' (ftsoRegistry s) a symbol with
     | Some x => retained (history_of s symbol) ++ [x]
     | None => history_of s symbol
     end).
Proof.
  intros Howner Hnz Hg.
  rewrite exec_registry_eq, exec_manager_eq.
  rewrite (bool_decide_eq_true_2 _ Howner), (bool_decide_eq_false_2 _ Hnz).
  cbn [andb negb]. split; (split; [reflexivity|]).
  - rewrite exec_update_eq. cbn [set_ftsoRegistry reentrancy_entered ftsoRegistry ftsoManager].
    rewrite Hg. destruct (quoted e' a (ftsoManager s) symbol) as [[p t ep]|]; [|reflexivity].
    rewrite history_of_updated. now destruct (decide (symbol = symbol)).
  - rewrite exec_update_eq. cbn [set_ftsoManager reentrancy_entered ftsoRegistry ftsoManager].
    rewrite Hg. destruct (quoted e' (ftsoRegistry s) a symbol) as [[p t ep]|]; [|reflexivity].
    rewrite history_of_updated. now destruct (decide (symbol = symbol)).
Qed.

Lemma update_reads_the_repointed_feed_witness :
  (ftsoRegistry (exec (quoting 1 1700000000 1, CallUpdateFtsoRegistry 9%Z) fresh) = 9%Z /\
   history_of
     (exec (quoting_at 9%Z 5 1700003600 70, CallUpdatePriceData "XRP")
        (exec (quoting 1 1700000000 1, CallUpdateFtsoRegistry 9%Z) fresh)) "XRP"
   = [mkPriceData 70 1700003600 7]) /\
  (ftsoManager (exec (quoting 1 1700000000 1, CallUpdateFtsoManager 9%Z) fresh) = 9%Z /\
   history_of
     (exec (quoting_at 9%Z 5 1700003600 70, CallUpdatePriceData "XRP")
        (exec (quoting 1 1700000000 1, CallUpdateFtsoManager 9%Z) fresh)) "XRP"
   = []).
Proof.
  assert (Hnz : 9%Z <> 0%Z) by discriminate.
  exact (update_reads_the_repointed_feed (quoting 1 1700000000 1)
           (quoting_at 9%Z 5 1700003600 70)
           9%Z "XRP" fresh eq_refl Hnz eq_refl).
Defined.

(** ** The two read functions agree *)

(** X13. [getPriceHistory] returns three arrays of the same length, one entry
    per stored sample, and [getLatestPriceData] returns exactly their last
    entries: it fails with "No price data available" exactly when the arrays
    are empty. *)
Theorem latest_is_last_of_history (symbol : string) (s : State) :
  exists prices timestamps epochIds : list Z,
    getPriceHistory symbol s = Ok (prices, timestamps, epochIds) /\
    length prices = length (history_of s symbol) /\
    length timestamps = length prices /\ length epochIds = length prices /\
    (forall p t ep : Z,
       getLatestPriceData symbol s = Ok (p, t, ep) <->
       last prices = Some p /\ last timestamps = Some t /\ last epochIds = Some ep) /\
    (getLatestPriceData symbol s = Revert NotFound <-> prices = []).
Proof.
  exists (price <$> history_of s symbol), (timestamp <$> history_of s symbol),
         (epochId <$> history_of s symbol).
  split; [apply getPriceHistory_eq|].
  rewrite !length_fmap.
  split; [reflexivity|]. split; [reflexivity|]. split; [reflexivity|].
  destruct (decide (history_of s symbol = [])) as [Hnil|Hne].
  - rewrite (getLatestPriceData_nil _ _ Hnil), Hnil. cbn. split.
    + intros p t ep. split; [discriminate|intros (? & _); discriminate].
    + split; reflexivity.
  - destruct (exists_last Hne) as (older & newest & Hh).
    rewrite (getLatestPriceData_snoc _ _ _ _ Hh), Hh, !fmap_app.
    cbn [fmap list_fmap]. rewrite !last_snoc. split.
    + intros p t ep. split;
        [now intros [= <- <- <-]|now intros ([= <-] & [= <-] & [= <-])].
    + split; [discriminate|intros Hnil; now apply app_eq_nil in Hnil as [_ ?]].
Qed.

(** ** The deployment script *)











Example main_skips_the_failing_token :
  match main "coston2" (quoting 1 1700000000 10) None (feeds_except "BTC") with
  | Completed s =>
      (price <$> history_of s "XRP", price <$> history_of s "BTC",
       price <$> history_of s "ETH", price <$> history_of s "FLR")
      = ([10], [], [10], [10])%Z
  | Thrown _ => False
  end.
Proof. vm_compute. reflexivity. Qed.
